(** * Solana bootcamp walkthrough scripts: a trace model

    The repository consists of three straight-line asynchronous scripts:

    - [week-1/assignment/scripts/index.ts]: a three-instruction transfer
      transaction;
    - the week-2 token script (create a mint, attach metadata, mint to two
      wallets);
    - [week-2/assignment/scripts/createNFTs.ts]: an NFT minted through the
      Metaplex SDK.

    Each script is embedded as a computation in a small monad that threads
    the history of observable events (console output, generated keypairs,
    requests issued and their completions) and may end by throwing.  What
    the outside world answers (the RPC node, the random generator, the file
    system, the Metaplex SDK) is a parameter of the run and may depend on
    everything that happened before. *)

From Stdlib Require Import ZArith List String Bool Lia.
From Stdlib Require Import Strings.Byte.
Import ListNotations.

Local Open Scope string_scope.
Local Open Scope list_scope.
Local Open Scope Z_scope.

(** ** Values handled by the scripts *)

Definition Buffer := list byte.

(** A public key is kept in its base-58 text form; [toBuffer] (its 32 raw
    bytes) is a function of the web3.js library, see [Sdk]. *)
Record PublicKey := mkPublicKey { toBase58 : string }.

Record Keypair := mkKeypair { publicKey : PublicKey; secretKey : Buffer }.

Definition Blockhash := string.
Definition TransactionSignature := string.

(** Whatever a rejected promise or a throwing call carries. *)
Definition JsError := string.

Definition PublicKey_eqb (a b : PublicKey) : bool :=
  String.eqb (toBase58 a) (toBase58 b).

(** *** Instructions

    An instruction is the library constructor that built it together with
    the arguments the script passed. *)

Module CreateAccountParams.
Record t := mk {
  fromPubkey : PublicKey;
  newAccountPubkey : PublicKey;
  lamports : Z;
  space : Z;
  programId : PublicKey }.
End CreateAccountParams.

Module TransferParams.
Record t := mk {
  lamports : Z;
  fromPubkey : PublicKey;
  toPubkey : PublicKey;
  programId : PublicKey }.
End TransferParams.

Module DataV2.
Record t := mk {
  creators : option (list (PublicKey * bool * Z));
  name : string;
  symbol : string;
  uri : string;
  sellerFeeBasisPoints : Z;
  collection : option (PublicKey * bool);
  uses : option (Z * Z * Z) }.
End DataV2.

Module CreateMetadataAccountV3.
Record accounts := mkAccounts {
  metadata : PublicKey;
  mint : PublicKey;
  mintAuthority : PublicKey;
  payer : PublicKey;
  updateAuthority : PublicKey }.

Record args := mkArgs {
  data : DataV2.t;
  collectionDetails : option Z;
  isMutable : bool }.
End CreateMetadataAccountV3.

Inductive TransactionInstruction :=
| SystemProgram_createAccount (params : CreateAccountParams.t)
| SystemProgram_transfer (params : TransferParams.t)
| createInitializeMint2Instruction
    (mint : PublicKey) (decimals : Z)
    (mintAuthority : PublicKey) (freezeAuthority : option PublicKey)
| createCreateMetadataAccountV3Instruction
    (accounts : CreateMetadataAccountV3.accounts)
    (createMetadataAccountArgsV3 : CreateMetadataAccountV3.args)
| createAssociatedTokenAccountInstruction
    (payer associatedToken owner mint : PublicKey)
| createMintToInstruction
    (mint destination authority : PublicKey) (amount : Z).

(** *** Messages and transactions *)

Record TransactionMessage := mkTransactionMessage {
  payerKey : PublicKey;
  recentBlockhash : Blockhash;
  instructions : list TransactionInstruction }.

(** The compiled message keeps the fee payer, the blockhash and the
    instructions in the order given; the wire layout is not modelled. *)
Record MessageV0 := mkMessageV0 {
  v0_payerKey : PublicKey;
  v0_recentBlockhash : Blockhash;
  v0_instructions : list TransactionInstruction }.

Definition compileToV0Message (m : TransactionMessage) : MessageV0 :=
  {| v0_payerKey := payerKey m;
     v0_recentBlockhash := recentBlockhash m;
     v0_instructions := instructions m |}.

(** A transaction records which keypairs have signed it, in signing order;
    the signature bytes themselves are not modelled. *)
Record VersionedTransaction := mkVersionedTransaction {
  message : MessageV0;
  signers : list Keypair }.

Definition new_VersionedTransaction (m : MessageV0) : VersionedTransaction :=
  {| message := m; signers := [] |}.

Definition sign (tx : VersionedTransaction) (ks : list Keypair)
  : VersionedTransaction :=
  {| message := message tx; signers := signers tx ++ ks |}.

(** *** Metaplex SDK values (NFT script) *)

Module JsonMetadata.
Record t := mk {
  name : string;
  symbol : string;
  description : string;
  image : string }.
End JsonMetadata.

Module BundlrOptions.
Record t := mk {
  address : string;
  providerUrl : string;
  timeout : Z }.
End BundlrOptions.

(** [Metaplex.make(connection).use(keypairIdentity(..)).use(bundlrStorage(..))] *)
Record Metaplex := mkMetaplex {
  identity : Keypair;
  storage : BundlrOptions.t }.

Module CreateNftInput.
Record t := mk {
  uri : string;
  name : string;
  symbol : string;
  useNewMint : Keypair;
  sellerFeeBasisPoints : Z;
  isMutable : bool }.
End CreateNftInput.

(** The SDK's view of an NFT is only ever printed. *)
Record Nft := mkNft { nft_dump : string }.

Record CreateNftOutput := mkCreateNftOutput {
  nft : Nft;
  response_signature : TransactionSignature }.

(** ** Observable events *)

(** Operations whose result comes from outside the script. *)
Inductive call :=
| getMinimumBalanceForRentExemption (dataLength : Z)
| getLatestBlockhash
| sendTransaction (tx : VersionedTransaction)
| extractSignatureFromFailedTransaction (err : JsError)
| savePublicKeyToFile (name : string) (key : PublicKey)
| uploadMetadata (mx : Metaplex) (metadata : JsonMetadata.t)
| nfts_create (mx : Metaplex) (input : CreateNftInput.t)
| findByMint (mx : Metaplex) (mintAddress : PublicKey).

Inductive reply :=
| r_lamports (n : Z)
| r_blockhash (b : Blockhash)
| r_signature (s : TransactionSignature)
| r_maybe_signature (s : option TransactionSignature)
| r_saved
| r_uri (u : string)
| r_created (o : CreateNftOutput)
| r_nft (n : Nft).

Inductive LogArg :=
| LStr (s : string)
| LTx (tx : VersionedTransaction)
| LNft (n : Nft).

Inductive event :=
| console_log (args : list LogArg)
| console_error (args : list LogArg)
| printConsoleSeparator (message : option string)
| generated (kp : Keypair)
| buildTransaction_called
    (payerKey : PublicKey) (signers : list Keypair)
    (instructions : list TransactionInstruction)
| buildTransaction_returned (tx : VersionedTransaction)
| requested (c : call)
| returned (c : call) (r : reply)
| threw (c : call) (e : JsError).

(** The history of a run, oldest event first. *)
Definition trace := list event.

(** ** The environment of a run *)

Inductive completion (A : Type) :=
| Normal (a : A)
| Throw (e : JsError).
Arguments Normal {A} a.
Arguments Throw {A} e.

(** Library values and pure functions the scripts import: from
    [@solana/web3.js], [@solana/spl-token] and
    [@metaplex-foundation/mpl-token-metadata], and [explorerURL] from
    [@/lib/helpers].  None of them is among the sources; they are
    parameters of a run. *)
Record Sdk := mkSdk {
  MINT_SIZE : Z;
  TOKEN_PROGRAM_ID : PublicKey;
  ASSOCIATED_TOKEN_PROGRAM_ID : PublicKey;
  METADATA_PROGRAM_ID : PublicKey;
  SystemProgram_programId : PublicKey;
  toBuffer : PublicKey -> Buffer;
  findProgramAddressSync : list Buffer -> PublicKey -> PublicKey * Z;
  explorerURL : TransactionSignature -> string }.

(** The shared configuration module [@/lib/vars]. *)
Record Vars := mkVars {
  payer : Keypair;
  testWallet : Keypair;
  STATIC_PUBLICKEY : PublicKey }.

(** What the outside answers, given the history so far.  Awaited calls
    either resolve or reject. *)
Record World := mkWorld {
  on_generate : trace -> Keypair;
  on_getMinimumBalanceForRentExemption : trace -> Z -> completion Z;
  on_getLatestBlockhash : trace -> completion Blockhash;
  on_sendTransaction :
    trace -> VersionedTransaction -> completion TransactionSignature;
  on_extractSignature : trace -> JsError -> option TransactionSignature;
  on_savePublicKeyToFile : trace -> string -> PublicKey -> completion unit;
  on_uploadMetadata :
    trace -> Metaplex -> JsonMetadata.t -> completion string;
  on_nfts_create :
    trace -> Metaplex -> CreateNftInput.t -> completion CreateNftOutput;
  on_findByMint : trace -> Metaplex -> PublicKey -> completion Nft }.

(** ** The script monad *)

Definition Script (A : Type) : Type := trace -> trace * completion A.

Definition ret {A} (a : A) : Script A := fun h => (h, Normal a).

Definition bind {A B} (m : Script A) (k : A -> Script B) : Script B :=
  fun h =>
    match m h with
    | (h', Normal a) => k a h'
    | (h', Throw e) => (h', Throw e)
    end.

Definition throw {A} (e : JsError) : Script A := fun h => (h, Throw e).

Definition try_catch {A} (body : Script A) (handler : JsError -> Script A)
  : Script A :=
  fun h =>
    match body h with
    | (h', Normal a) => (h', Normal a)
    | (h', Throw e) => handler e h'
    end.

Definition emit (ev : event) : Script unit := fun h => (h ++ [ev], Normal tt).

(** [await c ask inj]: issue the request [c], suspend until the outside
    completes it, and resume with the value or the rejection. *)
Definition await {A} (c : call) (ask : trace -> completion A)
    (inj : A -> reply) : Script A :=
  fun h =>
    let h1 := h ++ [requested c] in
    match ask h1 with
    | Normal a => (h1 ++ [returned c (inj a)], Normal a)
    | Throw e => (h1 ++ [threw c e], Throw e)
    end.

Declare Scope script_scope.
Delimit Scope script_scope with script.
Notation "x <- m ;; k" := (bind m (fun x => k))
  (at level 100, m at next level, right associativity) : script_scope.
Notation "m ;; k" := (bind m (fun _ => k))
  (at level 100, right associativity) : script_scope.
Local Open Scope script_scope.

Definition run {A} (s : Script A) : trace * completion A := s [].

(** ** Constants written in the scripts *)

Module TokenConfig.
Record t := mk {
  decimals : Z;
  name : string;
  symbol : string;
  uri : string }.
End TokenConfig.

(** Token script, [tokenConfig]. *)
Definition tokenConfig : TokenConfig.t :=
  {| TokenConfig.decimals := 6;
     TokenConfig.name := "Pepe Token";
     TokenConfig.symbol := "PP";
     TokenConfig.uri :=
       "https://raw.githubusercontent.com/hkhangus/solana-bootcamp-autumn-2024/main/week-2/assignment/assets/pepe-token.json" |}.

(** NFT script, [metadata]. *)
Definition metadata : JsonMetadata.t :=
  {| JsonMetadata.name := "Pepe Token";
     JsonMetadata.symbol := "PP";
     JsonMetadata.description :=
       "Pepe Token is a token for the people, by the people, and of the people.";
     JsonMetadata.image :=
       "https://github.com/hkhangus/solana-bootcamp-autumn-2024/blob/main/week-2/assignment/assets/pepe.jpg?raw=true" |}.

(** [Buffer.from(text)] *)
Definition Buffer_from (s : string) : Buffer := list_byte_of_string s.

(** JavaScript truthiness of a string: only the empty string is falsy. *)
Definition truthy (s : string) : bool := negb (String.eqb s EmptyString).

(** ** The scripts *)

Section Scripts.

Variable sdk : Sdk.
Variable vars : Vars.
Variable world : World.

(** *** Calls that leave the script *)

Definition Keypair_generate : Script Keypair :=
  fun h => let kp := on_generate world h in (h ++ [generated kp], Normal kp).

Definition connection_getMinimumBalanceForRentExemption (dataLength : Z)
  : Script Z :=
  await (getMinimumBalanceForRentExemption dataLength)
        (fun h => on_getMinimumBalanceForRentExemption world h dataLength)
        r_lamports.

Definition connection_getLatestBlockhash : Script Blockhash :=
  await getLatestBlockhash (on_getLatestBlockhash world) r_blockhash.

Definition connection_sendTransaction (tx : VersionedTransaction)
  : Script TransactionSignature :=
  await (sendTransaction tx)
        (fun h => on_sendTransaction world h tx)
        r_signature.

(** Synchronous; it reaches the file system and is recorded like the
    awaited calls. *)
Definition helpers_savePublicKeyToFile (name : string) (key : PublicKey)
  : Script unit :=
  await (savePublicKeyToFile name key)
        (fun h => on_savePublicKeyToFile world h name key)
        (fun _ => r_saved).

(** Modelled from the spec: [extractSignatureFromFailedTransaction] of
    [@/lib/helpers] is not among the sources.  The spec describes it as an
    attempt "to pull a transaction signature out of the thrown error for
    logging purposes": it yields a signature or nothing. *)
Definition helpers_extractSignatureFromFailedTransaction (err : JsError)
  : Script (option TransactionSignature) :=
  await (extractSignatureFromFailedTransaction err)
        (fun h => Normal (on_extractSignature world h err))
        r_maybe_signature.

(** Modelled from the spec: [buildTransaction] of [@/lib/helpers] is not
    among the sources.  The spec's step 3: it "assembles instructions into
    a single transaction message, attaches a recent blockhash, and signs
    with the required keypairs"; fetching the recent blockhash is a
    network request.  The arguments the script passes are recorded on
    entry, the transaction it gets back on return. *)
Definition helpers_buildTransaction (payerKey : PublicKey)
    (signers : list Keypair) (instructions : list TransactionInstruction)
  : Script VersionedTransaction :=
  emit (buildTransaction_called payerKey signers instructions) ;;
  blockhash <- connection_getLatestBlockhash ;;
  let messageV0 :=
    compileToV0Message
      {| payerKey := payerKey;
         recentBlockhash := blockhash;
         instructions := instructions |} in
  let tx := sign (new_VersionedTransaction messageV0) signers in
  emit (buildTransaction_returned tx) ;;
  ret tx.

Definition metaplex_uploadMetadata (mx : Metaplex) (m : JsonMetadata.t)
  : Script string :=
  await (uploadMetadata mx m) (fun h => on_uploadMetadata world h mx m) r_uri.

Definition metaplex_nfts_create (mx : Metaplex) (input : CreateNftInput.t)
  : Script CreateNftOutput :=
  await (nfts_create mx input)
        (fun h => on_nfts_create world h mx input)
        r_created.

Definition metaplex_findByMint (mx : Metaplex) (mintAddress : PublicKey)
  : Script Nft :=
  await (findByMint mx mintAddress)
        (fun h => on_findByMint world h mx mintAddress)
        r_nft.

(** *** week-1/assignment/scripts/index.ts *)

Definition week1_index : Script unit :=
  emit (console_log [LStr "Payer address:";
                     LStr (toBase58 (publicKey (payer vars)))]) ;;
  emit (console_log [LStr "Test wallet address:";
                     LStr (toBase58 (publicKey (testWallet vars)))]) ;;
  keypair <- Keypair_generate ;;
  let space := 0 in
  let createAccountIx :=
    SystemProgram_createAccount
      {| CreateAccountParams.fromPubkey := publicKey (payer vars);
         CreateAccountParams.newAccountPubkey := publicKey keypair;
         CreateAccountParams.lamports := 200000000;
         CreateAccountParams.space := space;
         CreateAccountParams.programId := SystemProgram_programId sdk |} in
  let transferToStaticWalletIx :=
    SystemProgram_transfer
      {| TransferParams.lamports := 100000000;
         TransferParams.fromPubkey := publicKey keypair;
         TransferParams.toPubkey := STATIC_PUBLICKEY vars;
         TransferParams.programId := SystemProgram_programId sdk |} in
  let closeAccountIx :=
    SystemProgram_transfer
      {| TransferParams.lamports := 100000000;
         TransferParams.fromPubkey := publicKey keypair;
         TransferParams.toPubkey := publicKey (payer vars);
         TransferParams.programId := SystemProgram_programId sdk |} in
  recentBlockhash <- connection_getLatestBlockhash ;;
  let message :=
    compileToV0Message
      {| payerKey := publicKey (payer vars);
         recentBlockhash := recentBlockhash;
         instructions :=
           [createAccountIx; transferToStaticWalletIx; closeAccountIx] |} in
  let tx := new_VersionedTransaction message in
  let tx := sign tx [payer vars; keypair] in
  sig <- connection_sendTransaction tx ;;
  emit (printConsoleSeparator None) ;;
  emit (console_log [LStr "Transaction completed."]) ;;
  emit (console_log [LStr (explorerURL sdk sig)]).

(** *** The week-2 token script *)

Definition mintToken : Script unit :=
  emit (console_log [LStr "Payer address:";
                     LStr (toBase58 (publicKey (payer vars)))]) ;;
  emit (console_log [LStr "Test wallet address:";
                     LStr (toBase58 (publicKey (testWallet vars)))]) ;;
  mintKeypair <- Keypair_generate ;;
  emit (console_log [LStr "Mint address:";
                     LStr (toBase58 (publicKey mintKeypair))]) ;;
  rent <- connection_getMinimumBalanceForRentExemption (MINT_SIZE sdk) ;;
  let createMintAccountInstruction :=
    SystemProgram_createAccount
      {| CreateAccountParams.fromPubkey := publicKey (payer vars);
         CreateAccountParams.newAccountPubkey := publicKey mintKeypair;
         CreateAccountParams.space := MINT_SIZE sdk;
         CreateAccountParams.lamports := rent;
         CreateAccountParams.programId := TOKEN_PROGRAM_ID sdk |} in
  let initializeMintInstruction :=
    createInitializeMint2Instruction
      (publicKey mintKeypair)
      (TokenConfig.decimals tokenConfig)
      (publicKey (payer vars))
      (Some (publicKey (payer vars))) in
  let metadataAccount :=
    fst (findProgramAddressSync sdk
           [Buffer_from "metadata";
            toBuffer sdk (METADATA_PROGRAM_ID sdk);
            toBuffer sdk (publicKey mintKeypair)]
           (METADATA_PROGRAM_ID sdk)) in
  emit (console_log [LStr "Metadata address:";
                     LStr (toBase58 metadataAccount)]) ;;
  let createMetadataInstruction :=
    createCreateMetadataAccountV3Instruction
      {| CreateMetadataAccountV3.metadata := metadataAccount;
         CreateMetadataAccountV3.mint := publicKey mintKeypair;
         CreateMetadataAccountV3.mintAuthority := publicKey (payer vars);
         CreateMetadataAccountV3.payer := publicKey (payer vars);
         CreateMetadataAccountV3.updateAuthority := publicKey (payer vars) |}
      {| CreateMetadataAccountV3.data :=
           {| DataV2.creators := None;
              DataV2.name := TokenConfig.name tokenConfig;
              DataV2.symbol := TokenConfig.symbol tokenConfig;
              DataV2.uri := TokenConfig.uri tokenConfig;
              DataV2.sellerFeeBasisPoints := 0;
              DataV2.collection := None;
              DataV2.uses := None |};
         CreateMetadataAccountV3.collectionDetails := None;
         CreateMetadataAccountV3.isMutable := true |} in
  let associatedToken :=
    findProgramAddressSync sdk
      [toBuffer sdk (publicKey (payer vars));
       toBuffer sdk (TOKEN_PROGRAM_ID sdk);
       toBuffer sdk (publicKey mintKeypair)]
      (ASSOCIATED_TOKEN_PROGRAM_ID sdk) in
  let createAssociatedTokenAccountSelfInstruction :=
    createAssociatedTokenAccountInstruction
      (publicKey (payer vars))
      (fst associatedToken)
      (publicKey (payer vars))
      (publicKey mintKeypair) in
  let mintTokenToSelfInstruction :=
    createMintToInstruction
      (publicKey mintKeypair)
      (fst associatedToken)
      (publicKey (payer vars))
      100000000 in
  let associatedToken2 :=
    findProgramAddressSync sdk
      [toBuffer sdk (STATIC_PUBLICKEY vars);
       toBuffer sdk (TOKEN_PROGRAM_ID sdk);
       toBuffer sdk (publicKey mintKeypair)]
      (ASSOCIATED_TOKEN_PROGRAM_ID sdk) in
  let createAssociatedTokenAccountStaticInstruction :=
    createAssociatedTokenAccountInstruction
      (publicKey (payer vars))
      (fst associatedToken2)
      (STATIC_PUBLICKEY vars)
      (publicKey mintKeypair) in
  let mintTokenToStaticAddressInstruction :=
    createMintToInstruction
      (publicKey mintKeypair)
      (fst associatedToken2)
      (publicKey (payer vars))
      10000000 in
  tx <- helpers_buildTransaction
          (publicKey (payer vars))
          [payer vars; mintKeypair]
          [createMintAccountInstruction;
           initializeMintInstruction;
           createMetadataInstruction;
           createAssociatedTokenAccountSelfInstruction;
           mintTokenToSelfInstruction;
           createAssociatedTokenAccountStaticInstruction;
           mintTokenToStaticAddressInstruction] ;;
  emit (printConsoleSeparator None) ;;
  try_catch
    (sig <- connection_sendTransaction tx ;;
     emit (console_log [LStr "Transaction completed."]) ;;
     emit (console_log [LStr (explorerURL sdk sig)]) ;;
     helpers_savePublicKeyToFile "tokenMint" (publicKey mintKeypair))
    (fun err =>
       emit (console_error [LStr "Failed to send transaction:"]) ;;
       emit (console_log [LTx tx]) ;;
       failedSig <- helpers_extractSignatureFromFailedTransaction err ;;
       match failedSig with
       | Some s =>
           if truthy s
           then emit (console_log [LStr "Failed signature:";
                                   LStr (explorerURL sdk s)])
           else ret tt
       | None => ret tt
       end ;;
       throw err).

(** *** week-2/assignment/scripts/createNFTs.ts *)

Definition createNFTs : Script unit :=
  emit (console_log [LStr "Payer address:";
                     LStr (toBase58 (publicKey (payer vars)))]) ;;
  let metaplex :=
    {| identity := payer vars;
       storage :=
         {| BundlrOptions.address := "https://devnet.bundlr.network";
            BundlrOptions.providerUrl := "https://api.devnet.solana.com";
            BundlrOptions.timeout := 60000 |} |} in
  emit (console_log [LStr "Uploading metadata..."]) ;;
  uri <- metaplex_uploadMetadata metaplex metadata ;;
  emit (console_log [LStr "Metadata uploaded:"; LStr uri]) ;;
  emit (printConsoleSeparator (Some "NFT details")) ;;
  emit (console_log [LStr "Creating NFT using Metaplex..."]) ;;
  tokenMint <- Keypair_generate ;;
  created <- metaplex_nfts_create metaplex
               {| CreateNftInput.uri := uri;
                  CreateNftInput.name := JsonMetadata.name metadata;
                  CreateNftInput.symbol := JsonMetadata.symbol metadata;
                  CreateNftInput.useNewMint := tokenMint;
                  CreateNftInput.sellerFeeBasisPoints := 1000;
                  CreateNftInput.isMutable := true |} ;;
  emit (console_log [LNft (nft created)]) ;;
  emit (printConsoleSeparator (Some "NFT created:")) ;;
  emit (console_log [LStr (explorerURL sdk (response_signature created))]) ;;
  emit (printConsoleSeparator (Some "Find by mint:")) ;;
  mintInfo <- metaplex_findByMint metaplex (publicKey tokenMint) ;;
  emit (console_log [LNft mintInfo]).

End Scripts.

(** ** Reading a trace *)

(** Transactions handed to [connection.sendTransaction], oldest first. *)
Fixpoint sent_transactions (t : trace) : list VersionedTransaction :=
  match t with
  | [] => []
  | requested (sendTransaction tx) :: t' => tx :: sent_transactions t'
  | _ :: t' => sent_transactions t'
  end.

(** A call that submits a transaction to the network: directly, or inside
    the Metaplex SDK's [create]. *)
Definition is_submission (c : call) : bool :=
  match c with
  | sendTransaction _ | nfts_create _ _ => true
  | _ => false
  end.

(** A call that goes over the network. *)
Definition is_network (c : call) : bool :=
  match c with
  | getMinimumBalanceForRentExemption _ | getLatestBlockhash
  | sendTransaction _ | uploadMetadata _ _ | nfts_create _ _
  | findByMint _ _ => true
  | extractSignatureFromFailedTransaction _ | savePublicKeyToFile _ _ => false
  end.

Fixpoint submissions (t : trace) : list call :=
  match t with
  | [] => []
  | requested c :: t' =>
      if is_submission c then c :: submissions t' else submissions t'
  | _ :: t' => submissions t'
  end.

(** The rejection of a submission, when there is one. *)
Fixpoint failed_submissions (t : trace) : list (call * JsError) :=
  match t with
  | [] => []
  | threw c e :: t' =>
      if is_submission c then (c, e) :: failed_submissions t'
      else failed_submissions t'
  | _ :: t' => failed_submissions t'
  end.

(** Errors given to [extractSignatureFromFailedTransaction]. *)
Fixpoint extraction_attempts (t : trace) : list JsError :=
  match t with
  | [] => []
  | requested (extractSignatureFromFailedTransaction e) :: t' =>
      e :: extraction_attempts t'
  | _ :: t' => extraction_attempts t'
  end.

(** Calls of [savePublicKeyToFile]: the name and the key to be stored. *)
Fixpoint file_writes (t : trace) : list (string * PublicKey) :=
  match t with
  | [] => []
  | requested (savePublicKeyToFile n k) :: t' => (n, k) :: file_writes t'
  | _ :: t' => file_writes t'
  end.

Fixpoint generated_keypairs (t : trace) : list Keypair :=
  match t with
  | [] => []
  | generated kp :: t' => kp :: generated_keypairs t'
  | _ :: t' => generated_keypairs t'
  end.

Definition is_completion (ev : event) : bool :=
  match ev with
  | returned _ _ | threw _ _ => true
  | _ => false
  end.

(** Monitor: a request is issued only while none is pending ([busy]), and
    a completion arrives only for a pending one. *)
Fixpoint sequential_from (busy : bool) (t : trace) : bool :=
  match t with
  | [] => true
  | requested _ :: t' => negb busy && sequential_from true t'
  | returned _ _ :: t' | threw _ _ :: t' => busy && sequential_from false t'
  | _ :: t' => sequential_from busy t'
  end.

Definition strictly_sequential (t : trace) : bool := sequential_from false t.

(** Between any two requests of the trace lies a completion: no two
    requests are ever in flight together. *)
Definition never_two_in_flight (t : trace) : Prop :=
  forall t1 c1 t2 c2 t3,
    t = t1 ++ requested c1 :: t2 ++ requested c2 :: t3 ->
    exists ev, In ev t2 /\ is_completion ev = true.

Fixpoint requests (t : trace) : list call :=
  match t with
  | [] => []
  | requested c :: t' => c :: requests t'
  | _ :: t' => requests t'
  end.

(** What follows the first rejected submission. *)
Fixpoint after_rejected_submission (t : trace) : option trace :=
  match t with
  | [] => None
  | threw c e :: t' =>
      if is_submission c then Some t' else after_rejected_submission t'
  | _ :: t' => after_rejected_submission t'
  end.

(** Requests other than submissions that were rejected. *)
Fixpoint rejected_before_submitting (t : trace) : list (call * JsError) :=
  match t with
  | [] => []
  | threw c e :: t' =>
      if is_submission c then rejected_before_submitting t'
      else (c, e) :: rejected_before_submitting t'
  | _ :: t' => rejected_before_submitting t'
  end.

Fixpoint fetched_blockhashes (t : trace) : list Blockhash :=
  match t with
  | [] => []
  | returned getLatestBlockhash (r_blockhash b) :: t' =>
      b :: fetched_blockhashes t'
  | _ :: t' => fetched_blockhashes t'
  end.

Fixpoint uploaded_metadata (t : trace) : list JsonMetadata.t :=
  match t with
  | [] => []
  | requested (uploadMetadata _ m) :: t' => m :: uploaded_metadata t'
  | _ :: t' => uploaded_metadata t'
  end.

Fixpoint nft_inputs (t : trace) : list CreateNftInput.t :=
  match t with
  | [] => []
  | requested (nfts_create _ i) :: t' => i :: nft_inputs t'
  | _ :: t' => nft_inputs t'
  end.

(** The awaited operations of a trace, reduced to which one starts,
    resolves or is rejected: the network requests and the building of the
    transaction. *)
Inductive operation :=
| rent_exemption_fetch
| transaction_build
| blockhash_fetch
| submission
| metadata_upload
| nft_creation
| nft_lookup.

Inductive step :=
| started (o : operation)
| resolved (o : operation)
| rejected (o : operation).

Definition network_operation (c : call) : option operation :=
  match c with
  | getMinimumBalanceForRentExemption _ => Some rent_exemption_fetch
  | getLatestBlockhash => Some blockhash_fetch
  | sendTransaction _ => Some submission
  | uploadMetadata _ _ => Some metadata_upload
  | nfts_create _ _ => Some nft_creation
  | findByMint _ _ => Some nft_lookup
  | extractSignatureFromFailedTransaction _ | savePublicKeyToFile _ _ => None
  end.

Definition awaited_step (ev : event) : list step :=
  match ev with
  | requested c =>
      match network_operation c with Some o => [started o] | None => [] end
  | returned c _ =>
      match network_operation c with Some o => [resolved o] | None => [] end
  | threw c _ =>
      match network_operation c with Some o => [rejected o] | None => [] end
  | buildTransaction_called _ _ _ => [started transaction_build]
  | buildTransaction_returned _ => [resolved transaction_build]
  | _ => []
  end.

Definition awaited_steps (t : trace) : list step := flat_map awaited_step t.

(** Monitor: every file write comes after a submission has resolved
    ([ok] says whether one already has). *)
Fixpoint writes_follow_success (ok : bool) (t : trace) : bool :=
  match t with
  | [] => true
  | returned c _ :: t' => writes_follow_success (ok || is_submission c) t'
  | requested (savePublicKeyToFile _ _) :: t' =>
      ok && writes_follow_success ok t'
  | _ :: t' => writes_follow_success ok t'
  end.

(** What the token script's [catch] block leaves in the trace for the
    transaction [tx], the caught error [err] and the helper's answer. *)
Definition catch_block_events (sdk : Sdk) (tx : VersionedTransaction)
    (err : JsError) (failedSig : option TransactionSignature) : trace :=
  [ console_error [LStr "Failed to send transaction:"];
    console_log [LTx tx];
    requested (extractSignatureFromFailedTransaction err);
    returned (extractSignatureFromFailedTransaction err)
             (r_maybe_signature failedSig) ]
  ++ match failedSig with
     | Some s =>
         if truthy s
         then [console_log [LStr "Failed signature:"; LStr (explorerURL sdk s)]]
         else []
     | None => []
     end.

(** A run handles a rejected submission by inspecting the error and
    throwing it again. *)
Definition inspects_and_rethrows (r : trace * completion unit) : Prop :=
  forall c e,
    In (c, e) (failed_submissions (fst r)) ->
    In e (extraction_attempts (fst r)) /\ snd r = Throw e.

(** A run lets a rejected submission escape untouched. *)
Definition lets_rejection_escape (r : trace * completion unit) : Prop :=
  forall c e,
    In (c, e) (failed_submissions (fst r)) ->
    extraction_attempts (fst r) = [] /\ snd r = Throw e.

(** ** Reading instructions *)

Inductive instruction_kind :=
| create_account
| transfer
| initialize_mint
| create_metadata_account
| create_associated_token_account
| mint_to.

Definition kind_of (ix : TransactionInstruction) : instruction_kind :=
  match ix with
  | SystemProgram_createAccount _ => create_account
  | SystemProgram_transfer _ => transfer
  | createInitializeMint2Instruction _ _ _ _ => initialize_mint
  | createCreateMetadataAccountV3Instruction _ _ => create_metadata_account
  | createAssociatedTokenAccountInstruction _ _ _ _ =>
      create_associated_token_account
  | createMintToInstruction _ _ _ _ => mint_to
  end.






(** Instruction lists handed to [buildTransaction]. *)
Fixpoint built_instruction_lists (t : trace)
  : list (list TransactionInstruction) :=
  match t with
  | [] => []
  | buildTransaction_called _ _ ixs :: t' => ixs :: built_instruction_lists t'
  | _ :: t' => built_instruction_lists t'
  end.


(** The address printed after ["Metadata address:"]. *)
Fixpoint logged_metadata_addresses (t : trace) : list string :=
  match t with
  | [] => []
  | console_log [LStr label; LStr address] :: t' =>
      if String.eqb label "Metadata address:"
      then address :: logged_metadata_addresses t'
      else logged_metadata_addresses t'
  | _ :: t' => logged_metadata_addresses t'
  end.


(** *** Lamports moved by System Program instructions *)

(** Lamports an instruction puts into account [a]. *)
Definition lamports_into (a : PublicKey) (ix : TransactionInstruction) : Z :=
  match ix with
  | SystemProgram_createAccount p =>
      if PublicKey_eqb (CreateAccountParams.newAccountPubkey p) a
      then CreateAccountParams.lamports p else 0
  | SystemProgram_transfer p =>
      if PublicKey_eqb (TransferParams.toPubkey p) a
      then TransferParams.lamports p else 0
  | _ => 0
  end.

(** Lamports an instruction takes out of account [a]. *)
Definition lamports_out_of (a : PublicKey) (ix : TransactionInstruction) : Z :=
  match ix with
  | SystemProgram_createAccount p =>
      if PublicKey_eqb (CreateAccountParams.fromPubkey p) a
      then CreateAccountParams.lamports p else 0
  | SystemProgram_transfer p =>
      if PublicKey_eqb (TransferParams.fromPubkey p) a
      then TransferParams.lamports p else 0
  | _ => 0
  end.

Definition sumZ (l : list Z) : Z := fold_right Z.add 0 l.



(** Net change of [a]'s balance over the whole instruction list. *)
Definition net_lamports (a : PublicKey)
    (ixs : list TransactionInstruction) : Z :=
  sumZ (map (fun ix => lamports_into a ix - lamports_out_of a ix) ixs).

(** URIs the metadata upload resolved with. *)
Fixpoint returned_uris (t : trace) : list string :=
  match t with
  | [] => []
  | returned (uploadMetadata _ _) (r_uri u) :: t' => u :: returned_uris t'
  | _ :: t' => returned_uris t'
  end.

(** What "at most one submission, no retry, no recovery, no validation"
    means for one run. *)
Definition submits_once_unchecked (r : trace * completion unit) : Prop :=
  (* at most one submission is ever requested *)
  (List.length (submissions (fst r)) <= 1)%nat
  (* once a submission is rejected nothing more goes over the network and
     the run ends by throwing the rejection *)
  /\ (forall rest,
        after_rejected_submission (fst r) = Some rest ->
        filter is_network (requests rest) = [])
  /\ (forall c e, In (c, e) (failed_submissions (fst r)) -> snd r = Throw e)
  (* the script never declines to submit: when nothing was submitted, an
     earlier request had been rejected *)
  /\ (submissions (fst r) = [] -> rejected_before_submitting (fst r) <> []).

(** ** Sample environments *)

Definition sample_sdk : Sdk :=
  {| MINT_SIZE := 82;
     TOKEN_PROGRAM_ID := mkPublicKey "TokenProgram";
     ASSOCIATED_TOKEN_PROGRAM_ID := mkPublicKey "AssociatedTokenProgram";
     METADATA_PROGRAM_ID := mkPublicKey "MetadataProgram";
     SystemProgram_programId := mkPublicKey "11111111111111111111111111111111";
     toBuffer := fun k => list_byte_of_string (toBase58 k);
     findProgramAddressSync := fun seeds programId =>
       (mkPublicKey
          (String.append "pda:" (string_of_list_byte (List.concat seeds))),
        255);
     explorerURL := fun sig =>
       String.append "https://explorer.solana.com/tx/" sig |}.

Definition sample_vars : Vars :=
  {| payer := mkKeypair (mkPublicKey "Payer") [];
     testWallet := mkKeypair (mkPublicKey "TestWallet") [];
     STATIC_PUBLICKEY := mkPublicKey "StaticWallet" |}.


(** A world in which every request resolves, except that submissions are
    rejected when [reject_submission] is set. *)
Definition sample_world (reject_submission : bool) : World :=
  {| on_generate := fun _ => mkKeypair (mkPublicKey "Fresh") [];
     on_getMinimumBalanceForRentExemption := fun _ _ => Normal 1461600;
     on_getLatestBlockhash := fun _ => Normal "blockhash-1";
     on_sendTransaction := fun _ _ =>
       if reject_submission then Throw "Transaction simulation failed"
       else Normal "sig-1";
     on_extractSignature := fun _ _ => None;
     on_savePublicKeyToFile := fun _ _ _ => Normal tt;
     on_uploadMetadata := fun _ _ _ => Normal "https://arweave.net/abc";
     on_nfts_create := fun _ _ _ =>
       if reject_submission then Throw "failed to send transaction"
       else Normal {| nft := mkNft "nft"; response_signature := "sig-2" |};
     on_findByMint := fun _ _ _ => Normal (mkNft "nft") |}.

(** ** Further readings *)

(** Every rejected request, with the error it was rejected with. *)
Fixpoint rejections (t : trace) : list (call * JsError) :=
  match t with
  | [] => []
  | threw c e :: t' => (c, e) :: rejections t'
  | _ :: t' => rejections t'
  end.

(** What went to [console.error]. *)
Fixpoint error_lines (t : trace) : list (list LogArg) :=
  match t with
  | [] => []
  | console_error args :: t' => args :: error_lines t'
  | _ :: t' => error_lines t'
  end.

(** The links printed after ["Failed signature:"]. *)
Fixpoint failed_signature_lines (t : trace) : list string :=
  match t with
  | [] => []
  | console_log [LStr label; LStr link] :: t' =>
      if String.eqb label "Failed signature:"
      then link :: failed_signature_lines t'
      else failed_signature_lines t'
  | _ :: t' => failed_signature_lines t'
  end.

(** Signatures [sendTransaction] resolved with. *)
Fixpoint resolved_signatures (t : trace) : list TransactionSignature :=
  match t with
  | [] => []
  | returned (sendTransaction _) (r_signature s) :: t' =>
      s :: resolved_signatures t'
  | _ :: t' => resolved_signatures t'
  end.

(** What the SDK's [create] resolved with. *)
Fixpoint created_outputs (t : trace) : list CreateNftOutput :=
  match t with
  | [] => []
  | returned (nfts_create _ _) (r_created o) :: t' => o :: created_outputs t'
  | _ :: t' => created_outputs t'
  end.


(** What the signature helper answered. *)
Fixpoint extraction_answers (t : trace)
  : list (option TransactionSignature) :=
  match t with
  | [] => []
  | returned (extractSignatureFromFailedTransaction _)
             (r_maybe_signature o) :: t' => o :: extraction_answers t'
  | _ :: t' => extraction_answers t'
  end.

(** Mint addresses asked for with [findByMint]. *)
Fixpoint looked_up_mints (t : trace) : list PublicKey :=
  match t with
  | [] => []
  | requested (findByMint _ k) :: t' => k :: looked_up_mints t'
  | _ :: t' => looked_up_mints t'
  end.

(** The Metaplex instance each SDK call goes through. *)
Fixpoint metaplex_instances (t : trace) : list Metaplex :=
  match t with
  | [] => []
  | requested (uploadMetadata mx _) :: t'
  | requested (nfts_create mx _) :: t'
  | requested (findByMint mx _) :: t' => mx :: metaplex_instances t'
  | _ :: t' => metaplex_instances t'
  end.

(** Calls of [buildTransaction]: fee payer, signers, instructions. *)
Fixpoint build_calls (t : trace)
  : list (PublicKey * list Keypair * list TransactionInstruction) :=
  match t with
  | [] => []
  | buildTransaction_called p ks ixs :: t' => (p, ks, ixs) :: build_calls t'
  | _ :: t' => build_calls t'
  end.


(** The associated-token-account creations of an instruction list. *)
Fixpoint associated_token_creations (ixs : list TransactionInstruction)
  : list TransactionInstruction :=
  match ixs with
  | [] => []
  | createAssociatedTokenAccountInstruction p a o m :: ixs' =>
      createAssociatedTokenAccountInstruction p a o m
      :: associated_token_creations ixs'
  | _ :: ixs' => associated_token_creations ixs'
  end.


(** The mint an instruction of the token program or of the metadata program
    is about; for an account creation, the account it creates. *)
Definition mint_of (ix : TransactionInstruction) : option PublicKey :=
  match ix with
  | SystemProgram_createAccount p => Some (CreateAccountParams.newAccountPubkey p)
  | SystemProgram_transfer _ => None
  | createInitializeMint2Instruction m _ _ _ => Some m
  | createCreateMetadataAccountV3Instruction acc _ =>
      Some (CreateMetadataAccountV3.mint acc)
  | createAssociatedTokenAccountInstruction _ _ _ m => Some m
  | createMintToInstruction m _ _ _ => Some m
  end.

(** The authorities an instruction names, and who pays for what it
    creates. *)
Definition authorities_and_payers (ix : TransactionInstruction)
  : list PublicKey :=
  match ix with
  | SystemProgram_createAccount p => [CreateAccountParams.fromPubkey p]
  | SystemProgram_transfer p => [TransferParams.fromPubkey p]
  | createInitializeMint2Instruction _ _ a f =>
      a :: match f with Some k => [k] | None => [] end
  | createCreateMetadataAccountV3Instruction acc _ =>
      [CreateMetadataAccountV3.mintAuthority acc;
       CreateMetadataAccountV3.payer acc;
       CreateMetadataAccountV3.updateAuthority acc]
  | createAssociatedTokenAccountInstruction p _ _ _ => [p]
  | createMintToInstruction _ _ a _ => [a]
  end.

(** Balance of [a] after each instruction in turn, starting from
    [balance]. *)
Fixpoint running_balances (a : PublicKey) (balance : Z)
    (ixs : list TransactionInstruction) : list Z :=
  match ixs with
  | [] => []
  | ix :: ixs' =>
      let balance' := balance + lamports_into a ix - lamports_out_of a ix in
      balance' :: running_balances a balance' ixs'
  end.

(** Transactions [buildTransaction] returned. *)
Fixpoint built_transactions (t : trace) : list VersionedTransaction :=
  match t with
  | [] => []
  | buildTransaction_returned tx :: t' => tx :: built_transactions t'
  | _ :: t' => built_transactions t'
  end.


(** The run ends the way its rejections say: normally when no request was
    rejected, and otherwise by throwing the error of the one rejected
    request. *)
Definition outcome_mirrors_rejections (r : trace * completion unit) : Prop :=
  (rejections (fst r) = [] /\ snd r = Normal tt)
  \/ exists c e, rejections (fst r) = [(c, e)] /\ snd r = Throw e.

(** ** Further environments *)

(** The node answers, but the key file cannot be written. *)
Definition sample_world_unwritable : World :=
  {| on_generate := fun _ => mkKeypair (mkPublicKey "Fresh") [];
     on_getMinimumBalanceForRentExemption := fun _ _ => Normal 1461600;
     on_getLatestBlockhash := fun _ => Normal "blockhash-1";
     on_sendTransaction := fun _ _ => Normal "sig-1";
     on_extractSignature := fun _ _ => None;
     on_savePublicKeyToFile := fun _ _ _ => Throw "EACCES: permission denied";
     on_uploadMetadata := fun _ _ _ => Normal "https://arweave.net/abc";
     on_nfts_create := fun _ _ _ =>
       Normal {| nft := mkNft "nft"; response_signature := "sig-2" |};
     on_findByMint := fun _ _ _ => Throw "AccountNotFoundError" |}.

(** The node cannot be reached. *)
Definition sample_world_offline : World :=
  {| on_generate := fun _ => mkKeypair (mkPublicKey "Fresh") [];
     on_getMinimumBalanceForRentExemption := fun _ _ => Throw "fetch failed";
     on_getLatestBlockhash := fun _ => Throw "fetch failed";
     on_sendTransaction := fun _ _ => Throw "fetch failed";
     on_extractSignature := fun _ _ => None;
     on_savePublicKeyToFile := fun _ _ _ => Normal tt;
     on_uploadMetadata := fun _ _ _ => Throw "fetch failed";
     on_nfts_create := fun _ _ _ => Throw "fetch failed";
     on_findByMint := fun _ _ _ => Throw "fetch failed" |}.

(** The submission is rejected and the helper finds a signature in the
    error. *)
Definition sample_world_with_failed_signature (found : string) : World :=
  {| on_generate := fun _ => mkKeypair (mkPublicKey "Fresh") [];
     on_getMinimumBalanceForRentExemption := fun _ _ => Normal 1461600;
     on_getLatestBlockhash := fun _ => Normal "blockhash-1";
     on_sendTransaction := fun _ _ => Throw "Transaction simulation failed";
     on_extractSignature := fun _ _ => Some found;
     on_savePublicKeyToFile := fun _ _ _ => Normal tt;
     on_uploadMetadata := fun _ _ _ => Normal "https://arweave.net/abc";
     on_nfts_create := fun _ _ _ => Throw "failed to send transaction";
     on_findByMint := fun _ _ _ => Normal (mkNft "nft") |}.

(** A configuration whose static wallet is the payer's own. *)
Definition vars_static_is_payer : Vars :=
  {| payer := mkKeypair (mkPublicKey "Payer") [];
     testWallet := mkKeypair (mkPublicKey "TestWallet") [];
     STATIC_PUBLICKEY := mkPublicKey "Payer" |}.

(** ** Proof support *)

Ltac unfold_script :=
  unfold run, week1_index, mintToken, createNFTs,
    helpers_buildTransaction, helpers_savePublicKeyToFile,
    helpers_extractSignatureFromFailedTransaction,
    connection_sendTransaction, connection_getLatestBlockhash,
    connection_getMinimumBalanceForRentExemption,
    metaplex_uploadMetadata, metaplex_nfts_create, metaplex_findByMint,
    Keypair_generate, try_catch, bind, await, emit, ret, throw.

(** Case analysis on the next answer of the world the run depends on. *)
Ltac answer :=
  match goal with
  | |- context [match ?x with Normal _ => _ | Throw _ => _ end] => destruct x
  | |- context [match ?x with Some _ => _ | None => _ end] => destruct x
  | |- context [if truthy ?s then _ else _] =>
      let E := fresh "answered" in destruct (truthy s) eqn:E
  end.

(** Every path of a script through the answers of the world: each run in
    the goal is replaced, path by path, by its trace and its completion. *)
Ltac explore :=
  repeat match goal with
         | |- context [run ?s] =>
             let r := fresh "r" in
             let Hr := fresh "Hr" in
             remember (run s) as r eqn:Hr; revert Hr;
             unfold_script; cbn; repeat (answer; cbn); intros ->
         end;
  cbn.

(** An event, or a pair read off the trace, claimed to be in an explicit
    list: either it is one of the elements or the case is absurd. *)
Ltac member H :=
  cbn in H;
  repeat (let H' := fresh H in
          destruct H as [H' | H];
          [ try discriminate H';
            try (injection H' as);
            subst
          | ]);
  try contradiction.

(** The event is one of those of an explicit trace. *)
Ltac occurs := cbn; repeat first [ left; reflexivity | right ].

(** Where an instruction sits in an explicit list. *)
Ltac locate H earlier :=
  repeat (destruct earlier as [ | ? earlier ];
          cbn in H;
          [ try discriminate H; try (injection H as; subst)
          | try discriminate H; injection H as ? H; subst ]).

(** ** Sample runs *)

Example mintToken_sample_run :
  awaited_steps
    (fst (run (mintToken sample_sdk sample_vars (sample_world false))))
  = [started rent_exemption_fetch; resolved rent_exemption_fetch;
     started transaction_build;
     started blockhash_fetch; resolved blockhash_fetch;
     resolved transaction_build;
     started submission; resolved submission]
  /\ file_writes
       (fst (run (mintToken sample_sdk sample_vars (sample_world false))))
     = [("tokenMint", mkPublicKey "Fresh")]
  /\ snd (run (mintToken sample_sdk sample_vars (sample_world false)))
     = Normal tt.
Proof. repeat split. Qed.

Example mintToken_sample_run_rejected :
  extraction_attempts
    (fst (run (mintToken sample_sdk sample_vars (sample_world true))))
  = ["Transaction simulation failed"]
  /\ file_writes
       (fst (run (mintToken sample_sdk sample_vars (sample_world true))))
     = []
  /\ snd (run (mintToken sample_sdk sample_vars (sample_world true)))
     = Throw "Transaction simulation failed".
Proof. repeat split. Qed.

Example week1_index_sample_run_rejected :
  awaited_steps
    (fst (run (week1_index sample_sdk sample_vars (sample_world true))))
  = [started blockhash_fetch; resolved blockhash_fetch;
     started submission; rejected submission]
  /\ extraction_attempts
       (fst (run (week1_index sample_sdk sample_vars (sample_world true))))
     = []
  /\ snd (run (week1_index sample_sdk sample_vars (sample_world true)))
     = Throw "Transaction simulation failed".
Proof. repeat split. Qed.

Example createNFTs_sample_run :
  awaited_steps
    (fst (run (createNFTs sample_sdk sample_vars (sample_world false))))
  = [started metadata_upload; resolved metadata_upload;
     started nft_creation; resolved nft_creation;
     started nft_lookup; resolved nft_lookup]
  /\ snd (run (createNFTs sample_sdk sample_vars (sample_world false)))
     = Normal tt.
Proof. repeat split. Qed.

(** ** Failed submissions *)

(** The week-1 script has no handler: a rejected submission escapes and no
    signature extraction is attempted. *)
Lemma week1_index_lets_rejection_escape sdk vars w :
  lets_rejection_escape (run (week1_index sdk vars w)).
Proof.
  unfold lets_rejection_escape. explore; intros ? ? H; member H.
  split; reflexivity.
Qed.

(** Neither has the NFT script. *)
Lemma createNFTs_lets_rejection_escape sdk vars w :
  lets_rejection_escape (run (createNFTs sdk vars w)).
Proof.
  unfold lets_rejection_escape. explore; intros ? ? H; member H.
  split; reflexivity.
Qed.

(** The token script inspects the error and throws it again. *)
Lemma mintToken_inspects_and_rethrows sdk vars w :
  inspects_and_rethrows (run (mintToken sdk vars w)).
Proof.
  unfold inspects_and_rethrows. explore; intros ? ? H; member H.
  all: split; [cbn; auto | reflexivity].
Qed.

(** C1, as stated, fails: in a run of the week-1 script whose submission is
    rejected, no signature extraction is attempted; the same holds for the
    NFT script. *)
Lemma not_every_script_inspects_the_error :
  ~ inspects_and_rethrows
      (run (week1_index sample_sdk sample_vars (sample_world true)))
  /\ ~ inspects_and_rethrows
         (run (createNFTs sample_sdk sample_vars (sample_world true))).
Proof.
  unfold inspects_and_rethrows.
  split; intros H; vm_compute in H;
    destruct (H _ _ (or_introl eq_refl)) as [[] _].
Qed.

(** C1, amended: only the token script handles a rejected submission, by
    attempting to extract a signature from the error and throwing the error
    again; in the week-1 script and in the NFT script the rejection escapes
    unchanged and no extraction is attempted. *)
Theorem only_mintToken_inspects_the_error sdk vars w :
  inspects_and_rethrows (run (mintToken sdk vars w))
  /\ lets_rejection_escape (run (week1_index sdk vars w))
  /\ lets_rejection_escape (run (createNFTs sdk vars w)).
Proof.
  split; [ | split ].
  - apply mintToken_inspects_and_rethrows.
  - apply week1_index_lets_rejection_escape.
  - apply createNFTs_lets_rejection_escape.
Qed.

Lemma only_mintToken_inspects_the_error_witness :
  let r := run (mintToken sample_sdk sample_vars (sample_world true)) in
  In "Transaction simulation failed" (extraction_attempts (fst r))
  /\ snd r = Throw "Transaction simulation failed".
Proof.
  intro r.
  destruct (only_mintToken_inspects_the_error
              sample_sdk sample_vars (sample_world true)) as [H _].
  eapply H. cbn. left. reflexivity.
Defined.

(** C2: in the token script, when [sendTransaction] is rejected for the
    built transaction [tx] with error [e], the catch block logs [tx], asks
    the helper for a signature in [e] (logging it when there is one), and
    the run ends by throwing [e] itself; [tx] is the only transaction ever
    handed to [sendTransaction]. *)
Theorem mintToken_failed_submission sdk vars w tx e :
  In (threw (sendTransaction tx) e) (fst (run (mintToken sdk vars w))) ->
  exists earlier failedSig,
    fst (run (mintToken sdk vars w))
    = earlier
      ++ [requested (sendTransaction tx); threw (sendTransaction tx) e]
      ++ catch_block_events sdk tx e failedSig
    /\ sent_transactions (fst (run (mintToken sdk vars w))) = [tx]
    /\ extraction_attempts (fst (run (mintToken sdk vars w))) = [e]
    /\ snd (run (mintToken sdk vars w)) = Throw e.
Proof.
  explore; intros H; member H.
  all: match goal with
       | |- exists _ _, ?t = _ /\ _ =>
           exists (firstn 12 t); cbn [firstn]
       end.
  all: match goal with
       | |- context [r_maybe_signature ?o] => exists o
       end.
  all: cbn; repeat match goal with
                   | H : truthy _ = _ |- _ => rewrite H
                   end; auto.
Qed.

Lemma mintToken_failed_submission_witness :
  let r := run (mintToken sample_sdk sample_vars (sample_world true)) in
  exists tx,
    sent_transactions (fst r) = [tx]
    /\ snd r = Throw "Transaction simulation failed".
Proof.
  intro r.
  edestruct (mintToken_failed_submission
               sample_sdk sample_vars (sample_world true))
    as (earlier & failedSig & _ & Hsent & _ & Hend).
  - cbn. do 13 right. left. reflexivity.
  - eexists. split; [exact Hsent | exact Hend].
Defined.

(** ** Submissions *)

(** C5: every script requests at most one submission per run; after a
    rejected submission no further network request is made and the run ends
    by throwing the rejection; and nothing but the rejection of an earlier
    request keeps a script from submitting what it constructed. *)
Theorem every_script_submits_once_unchecked sdk vars w :
  submits_once_unchecked (run (week1_index sdk vars w))
  /\ submits_once_unchecked (run (mintToken sdk vars w))
  /\ submits_once_unchecked (run (createNFTs sdk vars w)).
Proof.
  unfold submits_once_unchecked.
  split; [ | split ]; explore.
  all: repeat split;
    [ lia
    | intros rest H; try discriminate H; injection H as <-; reflexivity
    | intros ? ? H; member H; reflexivity
    | intros H; try discriminate H; discriminate ].
Qed.

Lemma every_script_submits_once_unchecked_witness :
  snd (run (createNFTs sample_sdk sample_vars (sample_world true)))
  = Throw "failed to send transaction"
  /\ snd (run (week1_index sample_sdk sample_vars (sample_world true)))
     = Throw "Transaction simulation failed".
Proof.
  destruct (every_script_submits_once_unchecked
              sample_sdk sample_vars (sample_world true))
    as ((_ & _ & H1 & _) & _ & (_ & _ & H3 & _)).
  split.
  - eapply H3. cbn. left. reflexivity.
  - eapply H1. cbn. left. reflexivity.
Defined.

(** ** File writes *)

Lemma writes_follow_success_sound t :
  forall ok,
    writes_follow_success ok t = true ->
    forall earlier n k later,
      t = earlier ++ requested (savePublicKeyToFile n k) :: later ->
      ok = true
      \/ exists c r, is_submission c = true /\ In (returned c r) earlier.
Proof.
  induction t as [ | ev t IH ]; intros ok Hm earlier n k later Ht.
  - destruct earlier; discriminate Ht.
  - destruct earlier as [ | ev' earlier ]; cbn in Ht.
    + injection Ht as -> ->. cbn in Hm.
      apply andb_true_iff in Hm. left. apply Hm.
    + injection Ht as <- ->.
      assert (Hstep :
                forall ok',
                  writes_follow_success ok'
                    (earlier ++ requested (savePublicKeyToFile n k) :: later)
                  = true ->
                  ok' = true
                  \/ exists c r,
                      is_submission c = true /\ In (returned c r) earlier)
        by (intros ok' H'; eapply IH; [exact H' | reflexivity]).
      destruct ev; cbn in Hm;
        try (destruct (Hstep ok Hm) as [ -> | (c' & r' & Hc & Hin) ];
             [ left; reflexivity
             | right; exists c', r'; split; [exact Hc | right; exact Hin] ]).
      * (* a request: a file write needs [ok] already *)
        destruct c; cbn in Hm;
          try (destruct (Hstep ok Hm) as [ -> | (c' & r' & Hc & Hin) ];
               [ left; reflexivity
               | right; exists c', r'; split; [exact Hc | right; exact Hin] ]).
        apply andb_true_iff in Hm. left. apply Hm.
      * (* a completion: it may be the submission resolving *)
        destruct (Hstep _ Hm) as [ Hok | (c' & r' & Hc & Hin) ].
        -- apply orb_true_iff in Hok. destruct Hok as [ -> | Hsub ].
           ++ left; reflexivity.
           ++ right. exists c, r. split; [exact Hsub | left; reflexivity].
        -- right. exists c', r'. split; [exact Hc | right; exact Hin].
Qed.

(** C3: the week-1 and NFT scripts write no file; the token script writes
    at most one, the generated mint's public key under the name
    ["tokenMint"]; that write is requested only after the submission has
    resolved, and a run whose submission is rejected writes nothing. *)
Theorem only_the_mint_key_is_saved sdk vars w :
  file_writes (fst (run (week1_index sdk vars w))) = []
  /\ file_writes (fst (run (createNFTs sdk vars w))) = []
  /\ (file_writes (fst (run (mintToken sdk vars w))) = []
      \/ exists mintKeypair,
          generated_keypairs (fst (run (mintToken sdk vars w))) = [mintKeypair]
          /\ file_writes (fst (run (mintToken sdk vars w)))
             = [("tokenMint", publicKey mintKeypair)])
  /\ (forall earlier n k later,
        fst (run (mintToken sdk vars w))
        = earlier ++ requested (savePublicKeyToFile n k) :: later ->
        exists tx sig,
          In (returned (sendTransaction tx) (r_signature sig)) earlier)
  /\ (failed_submissions (fst (run (mintToken sdk vars w))) <> [] ->
      file_writes (fst (run (mintToken sdk vars w))) = []).
Proof.
  repeat split.
  - explore; reflexivity.
  - explore; reflexivity.
  - explore; try (left; reflexivity).
    all: right; eexists; split; reflexivity.
  - intros earlier n k later Ht.
    assert (Hm : writes_follow_success false (fst (run (mintToken sdk vars w)))
                 = true) by (explore; reflexivity).
    destruct (writes_follow_success_sound _ _ Hm _ _ _ _ Ht)
      as [ Hf | (c & r & Hc & Hin) ]; [ discriminate Hf | ].
    assert (Hin' : In (returned c r) (fst (run (mintToken sdk vars w))))
      by (rewrite Ht; apply in_or_app; left; exact Hin).
    clear Ht Hm. revert Hin Hin'. explore; intros Hin Hin'; member Hin'.
    all: try discriminate Hc.
    all: eauto.
  - explore; intros H; try reflexivity; exfalso; apply H; reflexivity.
Qed.

Lemma only_the_mint_key_is_saved_witness :
  file_writes
    (fst (run (mintToken sample_sdk sample_vars (sample_world true)))) = []
  /\ file_writes
       (fst (run (mintToken sample_sdk sample_vars (sample_world false))))
     = [("tokenMint", mkPublicKey "Fresh")].
Proof.
  split.
  - apply (only_the_mint_key_is_saved
             sample_sdk sample_vars (sample_world true)).
    cbn. discriminate.
  - reflexivity.
Defined.

(** ** The week-1 transaction *)

(** C4: the week-1 script generates one keypair and, once the recent
    blockhash has been fetched, submits one transaction: its message holds
    exactly the three instructions in construction order (create account,
    transfer to the static wallet, transfer back to the payer) and the
    fetched blockhash, and it is already signed by the payer and by the
    generated keypair when it is submitted. *)
Theorem week1_index_transaction sdk vars w :
  exists keypair,
    generated_keypairs (fst (run (week1_index sdk vars w))) = [keypair]
    /\ ((awaited_steps (fst (run (week1_index sdk vars w)))
         = [started blockhash_fetch; rejected blockhash_fetch]
         /\ sent_transactions (fst (run (week1_index sdk vars w))) = [])
        \/ exists recentBlockhash,
            fetched_blockhashes (fst (run (week1_index sdk vars w)))
            = [recentBlockhash]
            /\ firstn 3 (awaited_steps (fst (run (week1_index sdk vars w))))
               = [started blockhash_fetch; resolved blockhash_fetch;
                  started submission]
            /\ sent_transactions (fst (run (week1_index sdk vars w)))
               = [ {| message :=
                        {| v0_payerKey := publicKey (payer vars);
                           v0_recentBlockhash := recentBlockhash;
                           v0_instructions :=
                             [ SystemProgram_createAccount
                                 {| CreateAccountParams.fromPubkey :=
                                      publicKey (payer vars);
                                    CreateAccountParams.newAccountPubkey :=
                                      publicKey keypair;
                                    CreateAccountParams.lamports := 200000000;
                                    CreateAccountParams.space := 0;
                                    CreateAccountParams.programId :=
                                      SystemProgram_programId sdk |};
                               SystemProgram_transfer
                                 {| TransferParams.lamports := 100000000;
                                    TransferParams.fromPubkey :=
                                      publicKey keypair;
                                    TransferParams.toPubkey :=
                                      STATIC_PUBLICKEY vars;
                                    TransferParams.programId :=
                                      SystemProgram_programId sdk |};
                               SystemProgram_transfer
                                 {| TransferParams.lamports := 100000000;
                                    TransferParams.fromPubkey :=
                                      publicKey keypair;
                                    TransferParams.toPubkey :=
                                      publicKey (payer vars);
                                    TransferParams.programId :=
                                      SystemProgram_programId sdk |} ] |};
                      signers := [payer vars; keypair] |} ]).
Proof.
  explore.
  all: eexists; split; [ reflexivity | ].
  1, 2: right; eexists; repeat split.
  left. split; reflexivity.
Qed.

(** ** Sequencing of requests *)

Lemma sequential_while_busy t2 :
  forall c2 t3,
    sequential_from true (t2 ++ requested c2 :: t3) = true ->
    exists ev, In ev t2 /\ is_completion ev = true.
Proof.
  induction t2 as [ | ev t2 IH ]; intros c2 t3 H.
  - cbn in H. discriminate H.
  - destruct ev; cbn in H;
      try (destruct (IH _ _ H) as (ev' & Hin & Hc);
           exists ev'; split; [right; exact Hin | exact Hc]).
    + discriminate H.
    + eexists. split; [left; reflexivity | reflexivity].
    + eexists. split; [left; reflexivity | reflexivity].
Qed.

Lemma sequential_from_no_overlap t1 :
  forall busy c1 t2 c2 t3,
    sequential_from busy (t1 ++ requested c1 :: t2 ++ requested c2 :: t3)
    = true ->
    exists ev, In ev t2 /\ is_completion ev = true.
Proof.
  induction t1 as [ | ev t1 IH ]; intros busy c1 t2 c2 t3 H.
  - cbn in H. apply andb_true_iff in H. destruct H as [_ H].
    eapply sequential_while_busy. exact H.
  - destruct ev; cbn in H;
      try (apply andb_true_iff in H; destruct H as [_ H]);
      eapply IH; exact H.
Qed.

Lemma strictly_sequential_sound t :
  strictly_sequential t = true -> never_two_in_flight t.
Proof.
  intros H t1 c1 t2 c2 t3 ->.
  eapply sequential_from_no_overlap. exact H.
Qed.

(** C8: in every script no request is issued while another is pending; in
    the token script the awaited operations come in the order
    rent-exemption fetch, building of the transaction (with its blockhash
    fetch inside), submission, each started only after the previous one
    has resolved. *)
Theorem requests_awaited_in_sequence sdk vars w :
  never_two_in_flight (fst (run (week1_index sdk vars w)))
  /\ never_two_in_flight (fst (run (mintToken sdk vars w)))
  /\ never_two_in_flight (fst (run (createNFTs sdk vars w)))
  /\ (awaited_steps (fst (run (mintToken sdk vars w)))
      = [started rent_exemption_fetch; rejected rent_exemption_fetch]
      \/ awaited_steps (fst (run (mintToken sdk vars w)))
         = [started rent_exemption_fetch; resolved rent_exemption_fetch;
            started transaction_build;
            started blockhash_fetch; rejected blockhash_fetch]
      \/ exists completed,
          In completed [resolved submission; rejected submission]
          /\ awaited_steps (fst (run (mintToken sdk vars w)))
             = [started rent_exemption_fetch; resolved rent_exemption_fetch;
                started transaction_build;
                started blockhash_fetch; resolved blockhash_fetch;
                resolved transaction_build;
                started submission; completed]).
Proof.
  repeat split.
  1-3: apply strictly_sequential_sound; explore; reflexivity.
  explore; auto.
  all: right; right; eexists; split; [ | reflexivity ]; cbn; auto.
Qed.

Lemma requests_awaited_in_sequence_witness :
  exists ev,
    In ev [returned getLatestBlockhash (r_blockhash "blockhash-1")]
    /\ is_completion ev = true.
Proof.
  destruct (requests_awaited_in_sequence
              sample_sdk sample_vars (sample_world false)) as [H _].
  eapply (H (firstn 3 (fst (run (week1_index sample_sdk sample_vars
                                   (sample_world false)))))
            getLatestBlockhash).
  reflexivity.
Defined.

(** ** The metadata account address *)




(** ** Fixed configuration *)


(** The properties above are about runs that do submit: in the sample
    world each script reaches its submission. *)
Example sample_runs_submit :
  List.length (sent_transactions
                 (fst (run (mintToken sample_sdk sample_vars
                              (sample_world false))))) = 1%nat
  /\ List.length (nft_inputs
                    (fst (run (createNFTs sample_sdk sample_vars
                                 (sample_world false))))) = 1%nat
  /\ List.length (sent_transactions
                    (fst (run (week1_index sample_sdk sample_vars
                                 (sample_world false))))) = 1%nat.
Proof. repeat split. Qed.

(** ** Lamports of the week-1 account *)

Lemma PublicKey_eqb_refl a : PublicKey_eqb a a = true.
Proof. unfold PublicKey_eqb. apply String.eqb_refl. Qed.

Lemma PublicKey_eqb_neq a b : a <> b -> PublicKey_eqb a b = false.
Proof.
  unfold PublicKey_eqb. intros H. apply String.eqb_neq. intros E.
  apply H. destruct a, b. cbn in E. congruence.
Qed.



(** ** The NFT's name and symbol *)

(** C10: the NFT script uploads exactly one metadata object, with name
    "Pepe Token" and symbol "PP"; once the upload has resolved with a URI
    it requests one NFT creation, whose name and symbol are those of the
    uploaded object and whose URI is the one the upload returned. *)
Theorem createNFTs_name_and_symbol sdk vars w :
  exists uploaded,
    uploaded_metadata (fst (run (createNFTs sdk vars w))) = [uploaded]
    /\ JsonMetadata.name uploaded = "Pepe Token"
    /\ JsonMetadata.symbol uploaded = "PP"
    /\ Forall (fun input =>
                 CreateNftInput.name input = JsonMetadata.name uploaded
                 /\ CreateNftInput.symbol input = JsonMetadata.symbol uploaded
                 /\ returned_uris (fst (run (createNFTs sdk vars w)))
                    = [CreateNftInput.uri input])
              (nft_inputs (fst (run (createNFTs sdk vars w))))
    /\ List.length (nft_inputs (fst (run (createNFTs sdk vars w))))
       = List.length (returned_uris (fst (run (createNFTs sdk vars w)))).
Proof.
  explore.
  all: eexists; split; [ reflexivity | ].
  all: repeat split; repeat constructor.
Qed.

(** ** Errors inside and outside the token script's try block *)

(** X1: the token script's try block also covers [savePublicKeyToFile].
    When the submission has resolved and saving the key then throws [e],
    the catch block runs as for a failed send: it prints "Failed to send
    transaction:", asks the helper for a signature in [e], and the run ends
    by throwing [e], although the transaction was submitted and its
    explorer link printed. *)
Theorem mintToken_failed_save_reported_as_failed_send sdk vars w n k e :
  In (savePublicKeyToFile n k, e)
     (rejections (fst (run (mintToken sdk vars w)))) ->
  exists tx sig,
    sent_transactions (fst (run (mintToken sdk vars w))) = [tx]
    /\ resolved_signatures (fst (run (mintToken sdk vars w))) = [sig]
    /\ In (console_log [LStr (explorerURL sdk sig)])
          (fst (run (mintToken sdk vars w)))
    /\ In (console_log [LTx tx]) (fst (run (mintToken sdk vars w)))
    /\ error_lines (fst (run (mintToken sdk vars w)))
       = [[LStr "Failed to send transaction:"]]
    /\ extraction_attempts (fst (run (mintToken sdk vars w))) = [e]
    /\ failed_submissions (fst (run (mintToken sdk vars w))) = []
    /\ snd (run (mintToken sdk vars w)) = Throw e.
Proof.
  explore; intros H; member H.
  all: do 2 eexists; repeat split; occurs.
Qed.

Lemma mintToken_failed_save_reported_as_failed_send_witness :
  error_lines
    (fst (run (mintToken sample_sdk sample_vars sample_world_unwritable)))
  = [[LStr "Failed to send transaction:"]]
  /\ snd (run (mintToken sample_sdk sample_vars sample_world_unwritable))
     = Throw "EACCES: permission denied".
Proof.
  edestruct (mintToken_failed_save_reported_as_failed_send
               sample_sdk sample_vars sample_world_unwritable
               "tokenMint" (mkPublicKey "Fresh") "EACCES: permission denied")
    as (tx & sig & _ & _ & _ & _ & Herr & _ & _ & Hend).
  - left. reflexivity.
  - split; [exact Herr | exact Hend].
Defined.

(** X2: the rent-exemption fetch lies outside the try block.  When it is
    rejected with [e], the run ends by throwing [e] and the catch block
    never runs: nothing is printed to the error stream, no signature
    extraction is attempted, no transaction is built or submitted, the
    metadata address is never printed and no file is written. *)
Theorem mintToken_rejected_rent_fetch_unhandled sdk vars w n e :
  In (getMinimumBalanceForRentExemption n, e)
     (rejections (fst (run (mintToken sdk vars w)))) ->
  snd (run (mintToken sdk vars w)) = Throw e
  /\ error_lines (fst (run (mintToken sdk vars w))) = []
  /\ extraction_attempts (fst (run (mintToken sdk vars w))) = []
  /\ build_calls (fst (run (mintToken sdk vars w))) = []
  /\ submissions (fst (run (mintToken sdk vars w))) = []
  /\ logged_metadata_addresses (fst (run (mintToken sdk vars w))) = []
  /\ file_writes (fst (run (mintToken sdk vars w))) = []
  /\ List.length (generated_keypairs (fst (run (mintToken sdk vars w))))
     = 1%nat.
Proof.
  explore; intros H; member H.
  repeat split.
Qed.

Lemma mintToken_rejected_rent_fetch_unhandled_witness :
  snd (run (mintToken sample_sdk sample_vars sample_world_offline))
  = Throw "fetch failed".
Proof.
  apply (mintToken_rejected_rent_fetch_unhandled
           sample_sdk sample_vars sample_world_offline 82 "fetch failed").
  left. reflexivity.
Defined.

(** X3: no script swallows or replaces a rejection.  A run ends normally
    exactly when none of its requests was rejected; otherwise exactly one
    request was rejected and the run ends by throwing that request's
    error. *)
Theorem every_outcome_mirrors_rejections sdk vars w :
  outcome_mirrors_rejections (run (week1_index sdk vars w))
  /\ outcome_mirrors_rejections (run (mintToken sdk vars w))
  /\ outcome_mirrors_rejections (run (createNFTs sdk vars w)).
Proof.
  unfold outcome_mirrors_rejections.
  split; [ | split ]; explore.
  all: repeat match goal with u : unit |- _ => destruct u end.
  all: try (left; split; reflexivity).
  all: right; do 2 eexists; split; reflexivity.
Qed.

(** X4: a submission that resolves always gets its explorer link printed,
    with the signature the network answered: after [sendTransaction] in the
    week-1 and token scripts (in the token script even when saving the key
    fails afterwards), and after the SDK's [create] in the NFT script (even
    when the later lookup fails), where the NFT is printed too. *)
Theorem resolved_submission_prints_explorer_link sdk vars w :
  Forall (fun sig =>
            In (console_log [LStr (explorerURL sdk sig)])
               (fst (run (week1_index sdk vars w))))
         (resolved_signatures (fst (run (week1_index sdk vars w))))
  /\ Forall (fun sig =>
               In (console_log [LStr (explorerURL sdk sig)])
                  (fst (run (mintToken sdk vars w))))
            (resolved_signatures (fst (run (mintToken sdk vars w))))
  /\ Forall (fun created =>
               In (console_log [LNft (nft created)])
                  (fst (run (createNFTs sdk vars w)))
               /\ In (console_log
                        [LStr (explorerURL sdk (response_signature created))])
                     (fst (run (createNFTs sdk vars w))))
            (created_outputs (fst (run (createNFTs sdk vars w)))).
Proof.
  split; [ | split ]; explore.
  all: repeat first [ apply Forall_nil | apply Forall_cons | split ]; occurs.
Qed.

(** In this world the submissions resolve and what follows them fails:
    the links are printed all the same. *)
Example explorer_links_printed_before_later_failures :
  resolved_signatures
    (fst (run (mintToken sample_sdk sample_vars sample_world_unwritable)))
  = ["sig-1"]
  /\ In (console_log [LStr "https://explorer.solana.com/tx/sig-1"])
        (fst (run (mintToken sample_sdk sample_vars sample_world_unwritable)))
  /\ In (console_log [LStr "https://explorer.solana.com/tx/sig-2"])
        (fst (run (createNFTs sample_sdk sample_vars sample_world_unwritable)))
  /\ snd (run (createNFTs sample_sdk sample_vars sample_world_unwritable))
     = Throw "AccountNotFoundError".
Proof. repeat split; occurs. Qed.

(** ** The token script's instruction list *)



(** X6: in the instruction list handed to [buildTransaction], every
    mint-to instruction comes after the creation of the associated token
    account it mints into, for the same mint, and after the initialisation
    of that mint with the very authority that mints. *)
Theorem mintToken_mints_into_created_accounts
    sdk vars w ixs earlier m destination authority amount later :
  In ixs (built_instruction_lists (fst (run (mintToken sdk vars w)))) ->
  ixs = earlier
        ++ createMintToInstruction m destination authority amount :: later ->
  (exists funder owner,
      In (createAssociatedTokenAccountInstruction funder destination owner m)
         earlier)
  /\ (exists decimals freezeAuthority,
        In (createInitializeMint2Instruction
              m decimals authority freezeAuthority) earlier)
  /\ In amount [100000000; 10000000].
Proof.
  explore; intros Hin Hsplit; member Hin.
  all: locate Hsplit earlier.
  all: repeat split; try (do 2 eexists); occurs.
Qed.

Lemma mintToken_mints_into_created_accounts_witness :
  exists funder owner,
    In (createAssociatedTokenAccountInstruction
          funder
          (mkPublicKey "pda:StaticWalletTokenProgramFresh")
          owner
          (mkPublicKey "Fresh"))
       (firstn 6
          (hd []
              (built_instruction_lists
                 (fst (run (mintToken sample_sdk sample_vars
                              (sample_world false))))))).
Proof.
  eapply (mintToken_mints_into_created_accounts
            sample_sdk sample_vars (sample_world false)
            _ _ _ _ (mkPublicKey "Payer") 10000000 []).
  - left. reflexivity.
  - reflexivity.
Defined.

(** X7: when the configured static wallet is the payer's own address, the
    two associated token accounts are derived from the same seeds, so the
    instruction list asks twice for the creation of one and the same
    account. *)
Theorem mintToken_static_wallet_is_payer sdk vars w ixs :
  STATIC_PUBLICKEY vars = publicKey (payer vars) ->
  In ixs (built_instruction_lists (fst (run (mintToken sdk vars w)))) ->
  exists creation, associated_token_creations ixs = [creation; creation].
Proof.
  intros Hsame. explore; intros Hin; member Hin.
  all: rewrite Hsame; eexists; reflexivity.
Qed.

Lemma mintToken_static_wallet_is_payer_witness :
  exists creation,
    associated_token_creations
      (hd []
          (built_instruction_lists
             (fst (run (mintToken sample_sdk vars_static_is_payer
                          (sample_world false))))))
    = [creation; creation].
Proof.
  apply (mintToken_static_wallet_is_payer
           sample_sdk vars_static_is_payer (sample_world false)).
  - reflexivity.
  - left. reflexivity.
Defined.

(** X8: every instruction handed to [buildTransaction] is about the one
    generated mint, and every authority or payer it names is the
    configured payer. *)
Theorem mintToken_one_mint_one_authority sdk vars w :
  exists mintKeypair,
    generated_keypairs (fst (run (mintToken sdk vars w))) = [mintKeypair]
    /\ Forall (Forall (fun ix =>
                         mint_of ix = Some (publicKey mintKeypair)
                         /\ Forall (eq (publicKey (payer vars)))
                                   (authorities_and_payers ix)))
              (built_instruction_lists (fst (run (mintToken sdk vars w)))).
Proof.
  explore.
  all: eexists; split; [ reflexivity | ].
  all: repeat first [ apply Forall_nil | apply Forall_cons | split ];
    reflexivity.
Qed.

(** ** Signers *)


(** ** The week-1 account, step by step *)

(** X10: executed in the order the week-1 script gives them, the three
    instructions leave the new account with 200,000,000, then 100,000,000,
    then 0 lamports: it is never overdrawn.  The order matters: either
    transfer, executed before the creation, would take the account below
    zero. *)
Theorem week1_index_account_never_overdrawn sdk vars w keypair tx :
  In keypair (generated_keypairs (fst (run (week1_index sdk vars w)))) ->
  In tx (sent_transactions (fst (run (week1_index sdk vars w)))) ->
  publicKey keypair <> publicKey (payer vars) ->
  publicKey keypair <> STATIC_PUBLICKEY vars ->
  running_balances (publicKey keypair) 0 (v0_instructions (message tx))
  = [200000000; 100000000; 0]
  /\ forall ix,
      In ix (v0_instructions (message tx)) ->
      kind_of ix <> create_account ->
      0 + lamports_into (publicKey keypair) ix
        - lamports_out_of (publicKey keypair) ix < 0.
Proof.
  explore; intros Hk Ht Hp Hs; member Hk; member Ht.
  all: pose proof (PublicKey_eqb_neq _ _ (not_eq_sym Hp)) as Ep;
    pose proof (PublicKey_eqb_neq _ _ (not_eq_sym Hs)) as Es.
  all: split;
    [ cbn; rewrite !PublicKey_eqb_refl, ?Ep, ?Es; reflexivity
    | intros ix Hix Hkind; member Hix;
      try (exfalso; apply Hkind; reflexivity);
      cbn; rewrite !PublicKey_eqb_refl, ?Ep, ?Es; reflexivity ].
Qed.

Lemma week1_index_account_never_overdrawn_witness :
  running_balances
    (mkPublicKey "Fresh") 0
    (flat_map (fun tx => v0_instructions (message tx))
       (sent_transactions
          (fst (run (week1_index sample_sdk sample_vars
                       (sample_world false))))))
  = [200000000; 100000000; 0].
Proof.
  apply (week1_index_account_never_overdrawn
           sample_sdk sample_vars (sample_world false)
           (mkKeypair (mkPublicKey "Fresh") [])
           (hd (new_VersionedTransaction
                  (mkMessageV0 (mkPublicKey EmptyString) EmptyString []))
               (sent_transactions
                  (fst (run (week1_index sample_sdk sample_vars
                               (sample_world false))))))).
  - left. reflexivity.
  - left. reflexivity.
  - discriminate.
  - discriminate.
Defined.

(** X11: the net effect of the week-1 instructions, the new account being
    distinct from the payer and the static wallet: the payer ends
    100,000,000 lamports lighter and the static wallet 100,000,000 heavier;
    when the static wallet is the payer itself, the payer's balance is
    unchanged. *)
Theorem week1_index_net_effect sdk vars w keypair tx :
  In keypair (generated_keypairs (fst (run (week1_index sdk vars w)))) ->
  In tx (sent_transactions (fst (run (week1_index sdk vars w)))) ->
  publicKey keypair <> publicKey (payer vars) ->
  publicKey keypair <> STATIC_PUBLICKEY vars ->
  (STATIC_PUBLICKEY vars <> publicKey (payer vars) ->
   net_lamports (publicKey (payer vars)) (v0_instructions (message tx))
   = - 100000000
   /\ net_lamports (STATIC_PUBLICKEY vars) (v0_instructions (message tx))
      = 100000000)
  /\ (STATIC_PUBLICKEY vars = publicKey (payer vars) ->
      net_lamports (publicKey (payer vars)) (v0_instructions (message tx))
      = 0).
Proof.
  explore; intros Hk Ht Hp Hs; member Hk; member Ht.
  all: pose proof (PublicKey_eqb_neq _ _ Hp) as Ep;
    pose proof (PublicKey_eqb_neq _ _ Hs) as Es.
  all: split;
    [ intros Hd;
      pose proof (PublicKey_eqb_neq _ _ Hd) as Ed;
      pose proof (PublicKey_eqb_neq _ _ (not_eq_sym Hd)) as Ed';
      unfold net_lamports; cbn;
      rewrite !PublicKey_eqb_refl, ?Ep, ?Es, ?Ed, ?Ed'; split; reflexivity
    | intros He; rewrite He in *;
      unfold net_lamports; cbn;
      rewrite !PublicKey_eqb_refl, ?Ep; reflexivity ].
Qed.

Lemma week1_index_net_effect_witness :
  net_lamports
    (mkPublicKey "StaticWallet")
    (flat_map (fun tx => v0_instructions (message tx))
       (sent_transactions
          (fst (run (week1_index sample_sdk sample_vars
                       (sample_world false))))))
  = 100000000
  /\ net_lamports
       (mkPublicKey "Payer")
       (flat_map (fun tx => v0_instructions (message tx))
          (sent_transactions
             (fst (run (week1_index sample_sdk vars_static_is_payer
                          (sample_world false))))))
     = 0.
Proof.
  split.
  - apply (week1_index_net_effect
             sample_sdk sample_vars (sample_world false)
             (mkKeypair (mkPublicKey "Fresh") [])
             (hd (new_VersionedTransaction
                    (mkMessageV0 (mkPublicKey EmptyString) EmptyString []))
                 (sent_transactions
                    (fst (run (week1_index sample_sdk sample_vars
                                 (sample_world false))))))).
    + left. reflexivity.
    + left. reflexivity.
    + discriminate.
    + discriminate.
    + discriminate.
  - apply (week1_index_net_effect
             sample_sdk vars_static_is_payer (sample_world false)
             (mkKeypair (mkPublicKey "Fresh") [])
             (hd (new_VersionedTransaction
                    (mkMessageV0 (mkPublicKey EmptyString) EmptyString []))
                 (sent_transactions
                    (fst (run (week1_index sample_sdk vars_static_is_payer
                                 (sample_world false))))))).
    + left. reflexivity.
    + left. reflexivity.
    + discriminate.
    + discriminate.
    + reflexivity.
Defined.

(** ** The NFT script's mint keypair *)

(** X12: the NFT script generates its mint keypair only once the metadata
    upload has resolved; the keypair it passes to the SDK's [create] as the
    new mint is that generated keypair; [findByMint] is asked, only after
    [create] has resolved, for that keypair's public key; and every SDK
    call goes through one Metaplex instance whose identity is the payer. *)
Theorem createNFTs_mint_keypair_flow sdk vars w :
  List.length (generated_keypairs (fst (run (createNFTs sdk vars w))))
  = List.length (returned_uris (fst (run (createNFTs sdk vars w))))
  /\ map CreateNftInput.useNewMint (nft_inputs (fst (run (createNFTs sdk vars w))))
     = generated_keypairs (fst (run (createNFTs sdk vars w)))
  /\ List.length (looked_up_mints (fst (run (createNFTs sdk vars w))))
     = List.length (created_outputs (fst (run (createNFTs sdk vars w))))
  /\ incl (looked_up_mints (fst (run (createNFTs sdk vars w))))
          (map publicKey (generated_keypairs (fst (run (createNFTs sdk vars w)))))
  /\ exists mx,
      identity mx = payer vars
      /\ Forall (eq mx) (metaplex_instances (fst (run (createNFTs sdk vars w)))).
Proof.
  explore.
  all: repeat split; try (intros k Hk; member Hk; occurs).
  all: eexists; split; [ | repeat constructor ]; reflexivity.
Qed.

(** ** The failed-signature line *)

(** X13: in the token script's catch block the "Failed signature:" link is
    printed exactly when the helper answered with a non-empty signature,
    and then for that signature; an empty string counts as nothing
    found. *)
Theorem mintToken_failed_signature_line sdk vars w :
  Forall (fun answer =>
            failed_signature_lines (fst (run (mintToken sdk vars w)))
            = match answer with
              | Some s =>
                  if String.eqb s EmptyString then [] else [explorerURL sdk s]
              | None => []
              end)
         (extraction_answers (fst (run (mintToken sdk vars w))))
  /\ (extraction_answers (fst (run (mintToken sdk vars w))) = [] ->
      failed_signature_lines (fst (run (mintToken sdk vars w))) = []).
Proof.
  explore.
  all: split; [ | try discriminate; reflexivity ].
  all: repeat first [ apply Forall_nil | apply Forall_cons ].
  all: try reflexivity.
  all: match goal with
       | H : truthy ?s = _ |- _ =>
           unfold truthy in H; destruct (String.eqb s EmptyString);
           try discriminate H; reflexivity
       end.
Qed.

Lemma mintToken_failed_signature_line_witness :
  failed_signature_lines
    (fst (run (mintToken sample_sdk sample_vars (sample_world false)))) = [].
Proof.
  apply (mintToken_failed_signature_line
           sample_sdk sample_vars (sample_world false)).
  reflexivity.
Defined.

Example mintToken_failed_signature_line_samples :
  failed_signature_lines
    (fst (run (mintToken sample_sdk sample_vars
                 (sample_world_with_failed_signature "5VERv8NMvzbJMEkV"))))
  = ["https://explorer.solana.com/tx/5VERv8NMvzbJMEkV"]
  /\ failed_signature_lines
       (fst (run (mintToken sample_sdk sample_vars
                    (sample_world_with_failed_signature EmptyString))))
     = [].
Proof. split; reflexivity. Qed.

(** ** The transaction that is submitted *)

(** X14: the token script submits the transaction exactly as
    [buildTransaction] returned it, and always does so once it has one:
    the transactions handed to [sendTransaction] are those
    [buildTransaction] returned, and when the submission or the saving
    fails it is that same transaction the catch block prints. *)
Theorem mintToken_submits_what_was_built sdk vars w :
  sent_transactions (fst (run (mintToken sdk vars w)))
  = built_transactions (fst (run (mintToken sdk vars w)))
  /\ (error_lines (fst (run (mintToken sdk vars w))) <> [] ->
      exists tx,
        built_transactions (fst (run (mintToken sdk vars w))) = [tx]
        /\ In (console_log [LTx tx]) (fst (run (mintToken sdk vars w)))).
Proof.
  explore.
  all: split; [ reflexivity | ].
  all: intros H; try (exfalso; apply H; reflexivity).
  all: eexists; split; [ reflexivity | occurs ].
Qed.

Lemma mintToken_submits_what_was_built_witness :
  exists tx,
    built_transactions
      (fst (run (mintToken sample_sdk sample_vars (sample_world true))))
    = [tx]
    /\ In (console_log [LTx tx])
          (fst (run (mintToken sample_sdk sample_vars (sample_world true)))).
Proof.
  apply (mintToken_submits_what_was_built
           sample_sdk sample_vars (sample_world true)).
  cbn. discriminate.
Defined.
